(** * scikits.odes.dae: the DAE solver facade and its integrator registry

    A shallow embedding of [src/scikits/odes/dae.py]:

    - [DaeBase], the contract class whose methods all raise
      [NotImplementedError];
    - [dae], the user-facing class that resolves an integrator by name,
      owns one instance of it and forwards every call;
    - [find_dae_integrator], the lazy discovery of the integrators and the
      lookup by name with [re.match(name, cl.__name__, re.I)].

    Python exceptions are modelled by a [result] type, the mutable
    process state (the class attributes [dae.LOADED] and
    [DaeBase.integrator_classes], the standard output, the heap of the
    integrators) by explicit state passing.  What lives outside the file
    (the [re] engine, the modules imported during discovery, the
    integrator classes themselves) is a parameter. *)

From Stdlib Require Import Ascii String.
From stdpp Require Import gmap strings list.

Open Scope string_scope.
Open Scope list_scope.

(** ** Exceptions and results *)

(** The exception classes the module raises or catches.  A class stands
    for itself and its subclasses ([ImportError] covers
    [ModuleNotFoundError]); [OtherError] is any exception that is an
    instance of none of the named ones. *)
Inductive exn_class :=
| ValueError
| ImportError
| NotImplementedError
| AttributeError
| TypeError
| OtherError (cls : string).

Record exn := Exn { exn_cls : exn_class; exn_msg : string }.

Inductive result (A : Type) :=
| Ret (a : A)
| Raise (e : exn).
Arguments Ret {A} a.
Arguments Raise {A} e.

Definition is_ValueError (c : exn_class) : bool :=
  match c with ValueError => true | _ => false end.

Definition is_ImportError (c : exn_class) : bool :=
  match c with ImportError => true | _ => false end.

Definition raised {A} (r : result A) : bool :=
  match r with Raise _ => true | Ret _ => false end.

(** ** Strings

    A string is a sequence of 8-bit characters (code points 0 to 255).
    Under [re.I] two such characters agree when they are equal after
    folding the ASCII capitals. *)

Definition lower (c : ascii) : ascii :=
  let n := nat_of_ascii c in
  if (65 <=? n)%nat && (n <=? 90)%nat then ascii_of_nat (n + 32) else c.

Definition ci_char (a b : ascii) : bool := Ascii.eqb (lower a) (lower b).

(** [p.lower() == s.lower()], for an ASCII [p] *)
Fixpoint ci_eq (p s : string) : bool :=
  match p, s with
  | EmptyString, EmptyString => true
  | String a p', String b s' => ci_char a b && ci_eq p' s'
  | _, _ => false
  end.

(** [s.lower().startswith(p.lower())], for an ASCII [p] *)
Fixpoint ci_prefix (p s : string) : bool :=
  match p, s with
  | EmptyString, _ => true
  | String a p', String b s' => ci_char a b && ci_prefix p' s'
  | String _ _, EmptyString => false
  end.

(** The characters that are never special in a regular expression:
    ASCII letters, digits and the underscore. *)
Definition word_char (c : ascii) : bool :=
  let n := nat_of_ascii c in
  ((48 <=? n)%nat && (n <=? 57)%nat)
  || ((65 <=? n)%nat && (n <=? 90)%nat)
  || ((97 <=? n)%nat && (n <=? 122)%nat)
  || (n =? 95)%nat.

(** A pattern made of such characters only denotes itself. *)
Fixpoint literal (p : string) : bool :=
  match p with
  | EmptyString => true
  | String c p' => word_char c && literal p'
  end.

(** [name in msg] *)
Definition occurs_in (name msg : string) : Prop :=
  exists pre post, msg = pre +:+ name +:+ post.

(** What an attribute of a class holds: a string, or any other object
    (a function, a list, a number). *)
Inductive pyval :=
| PyStr (s : string)
| PyOther.

Section Model.

(** The Python values handed through the facade (residual functions,
    arrays, options, results), the integrator objects, and the part of
    the heap the integrators read and write. *)
Context {value obj world : Type}.

(** An integrator class: its [__name__], its five contract operations
    (the signatures of [DaeBase]) and [cl_dict], every further attribute
    that attribute lookup on the class finds. *)
Record pyclass := {
  cl__name__ : string;
  cl_dict : gmap string pyval;
  cl__init__ : value -> gmap string value -> world -> result obj * world;
  cl_set_options : obj -> gmap string value -> world -> result value * world;
  cl_solve : obj -> value -> value -> value -> world -> result value * world;
  cl_init_step : obj -> value -> value -> value -> option value -> option value ->
                 world -> result value * world;
  cl_step : obj -> value -> option value -> option value ->
            world -> result value * world
}.

Definition contract_methods : list string :=
  ["__init__"; "set_options"; "solve"; "init_step"; "step"].

(** [getattr(cl, a)] *)
Definition getattr (cl : pyclass) (a : string) : result pyval :=
  if String.eqb a "__name__" then Ret (PyStr (cl__name__ cl))
  else if existsb (String.eqb a) contract_methods
  then Ret PyOther
  else match cl_dict cl !! a with
       | Some v => Ret v
       | None =>
           Raise (Exn AttributeError
                    ("type object '" +:+ cl__name__ cl +:+
                     "' has no attribute '" +:+ a +:+ "'"))
       end.

(** [hasattr(cl, a)] *)
Definition hasattr (cl : pyclass) (a : string) : bool :=
  negb (raised (getattr cl a)).

(** An instance remembers its class: a method call on it dispatches
    there. *)
Record instance := { inst_class : pyclass; inst_self : obj }.

(** ** The process state *)

(** [imports] logs the import statements executed, in order. *)
Record state := {
  LOADED : bool;
  integrator_classes : list pyclass;
  stdout : list string;
  imports : list string;
  heap : world
}.

Definition set_LOADED (b : bool) (s : state) : state :=
  {| LOADED := b; integrator_classes := integrator_classes s;
     stdout := stdout s; imports := imports s; heap := heap s |}.

Definition set_heap (w : world) (s : state) : state :=
  {| LOADED := LOADED s; integrator_classes := integrator_classes s;
     stdout := stdout s; imports := imports s; heap := w |}.

(** Computations that read and write the state and may raise. *)
Definition M (A : Type) : Type := state -> result A * state.

Definition bind {A B} (m : M A) (f : A -> M B) : M B :=
  fun s => match m s with
           | (Ret a, s') => f a s'
           | (Raise e, s') => (Raise e, s')
           end.

(** [print(line)] *)
Definition print (line : string) : M unit :=
  fun s => (Ret tt,
            {| LOADED := LOADED s; integrator_classes := integrator_classes s;
               stdout := stdout s ++ [line]; imports := imports s;
               heap := heap s |}).

(** [DaeBase.integrator_classes.append(cl)], also for a list of them. *)
Definition register (cls : list pyclass) : M unit :=
  fun s => (Ret tt,
            {| LOADED := LOADED s;
               integrator_classes := integrator_classes s ++ cls;
               stdout := stdout s; imports := imports s; heap := heap s |}).

(** An import statement: it is logged and yields what the module
    yields. *)
Definition import_module {A} (module : string) (outcome : result A) : M A :=
  fun s => (outcome,
            {| LOADED := LOADED s; integrator_classes := integrator_classes s;
               stdout := stdout s; imports := imports s ++ [module];
               heap := heap s |}).

(** A method call on an integrator works on the heap only. *)
Definition call {A} (m : world -> result A * world) : M A :=
  fun s => let (r, w) := m (heap s) in (r, set_heap w s).

(** ** The environment of discovery

    The three modules are not part of the file.  [sundials_ida] is what
    [from .sundials import ida] followed by [ida.IDA] yields: the class
    or an exception.  [ddaspkint] and [lsodiint] are what importing
    these modules yields: the classes the module itself appends to
    [DaeBase.integrator_classes] while it is executed, or an
    exception. *)
Record environment := {
  sundials_ida : result pyclass;
  ddaspkint : result (list pyclass);
  lsodiint : result (list pyclass)
}.

(** ** The regular expression engine

    [re_match p v] is the truth value of [re.match(p, v, re.I)], or the
    exception it raises (a malformed pattern, a subject that is not a
    string).  The engine is the [re] module's. *)
Variable re_match : string -> pyval -> result bool.

(** ** class DaeBase *)

Definition not_implemented : exn :=
  Exn NotImplementedError "all DAE solvers must implement this".

Definition DaeBase__init__ (Rfn : value) (options : gmap string value)
  : world -> result obj * world :=
  fun w => (Raise not_implemented, w).

Definition DaeBase_set_options (self : obj) (options : gmap string value)
  : world -> result value * world :=
  fun w => (Raise not_implemented, w).

Definition DaeBase_solve (self : obj) (tspan y0 yp0 : value)
  : world -> result value * world :=
  fun w => (Raise not_implemented, w).

Definition DaeBase_init_step (self : obj) (t0 y0 yp0 : value)
  (y_ic0_retn yp_ic0_retn : option value) : world -> result value * world :=
  fun w => (Raise not_implemented, w).

Definition DaeBase_step (self : obj) (t : value) (y_retn yp_retn : option value)
  : world -> result value * world :=
  fun w => (Raise not_implemented, w).

(** The class object; [integrator_classes] is its one attribute besides
    the methods. *)
Definition DaeBase : pyclass :=
  {| cl__name__ := "DaeBase";
     cl_dict := {[ "integrator_classes" := PyOther ]};
     cl__init__ := DaeBase__init__;
     cl_set_options := DaeBase_set_options;
     cl_solve := DaeBase_solve;
     cl_init_step := DaeBase_init_step;
     cl_step := DaeBase_step |}.

(** ** find_dae_integrator *)

(** The [## ida] block: the import and the append are in one [try];
    [ValueError] and [ImportError] are caught. *)
Definition load_ida (env : environment) : M unit :=
  fun s =>
    match import_module "sundials.ida" (sundials_ida env) s with
    | (Ret IDA, s1) => register [IDA] s1
    | (Raise e, s1) =>
        if is_ValueError (exn_cls e)
        then print ("Could not load IDA solver " +:+ exn_msg e) s1
        else if is_ImportError (exn_cls e)
        then print (exn_msg e) s1
        else (Raise e, s1)
    end.

(** The [## ddaspk] and [## lsodi] blocks: the import alone is in the
    [try] and [ImportError] alone is caught.  The classes enter the list
    while the module is executed. *)
Definition load_module (module : string) (outcome : result (list pyclass))
  : M unit :=
  fun s =>
    match import_module module outcome s with
    | (Ret cls, s1) => register cls s1
    | (Raise e, s1) =>
        if is_ImportError (exn_cls e)
        then print (exn_msg e) s1
        else (Raise e, s1)
    end.

(** The body of [if not dae.LOADED:]. *)
Definition discover (env : environment) : M unit :=
  bind (load_ida env) (fun _ =>
  bind (load_module "ddaspkint" (ddaspkint env)) (fun _ =>
  bind (load_module "lsodiint" (lsodiint env)) (fun _ =>
  fun s => (Ret tt, set_LOADED true s)))).

(** The condition of the loop's [if]/[elif] for one class: truthy,
    falsy, or an exception. *)
Definition name_matches (name : string) (cl : pyclass) : result bool :=
  match re_match name (PyStr (cl__name__ cl)) with
  | Raise e => Raise e
  | Ret true => Ret true
  | Ret false =>
      if hasattr cl name
      then match getattr cl "name" with
           | Raise e => Raise e
           | Ret v => re_match name v
           end
      else Ret false
  end.

(** [for cl in DaeBase.integrator_classes: ...] and the [raise] after
    it.  [Ret None] would be Python's [None]. *)
Fixpoint search (name : string) (classes : list pyclass)
  : result (option pyclass) :=
  match classes with
  | [] => Raise (Exn ValueError
                   ("Integrator name " +:+ name +:+ " does not exsist"))
  | cl :: rest =>
      match name_matches name cl with
      | Raise e => Raise e
      | Ret true => Ret (Some cl)
      | Ret false => search name rest
      end
  end.

(** [if not dae.LOADED: ...] *)
Definition ensure_loaded (env : environment) : M unit :=
  fun s => if LOADED s then (Ret tt, s) else discover env s.

Definition find_dae_integrator (env : environment) (name : string)
  : M (option pyclass) :=
  bind (ensure_loaded env) (fun _ =>
  fun s => (search name (integrator_classes s), s)).

(** ** class dae *)

(** The facade object: its one attribute, present or deleted. *)
Record dae := { _integrator : option instance }.

(** [repr] of a name without quotes or escapes in it. *)
Definition repr (name : string) : string := "'" +:+ name +:+ "'".

Definition dae__init__ (env : environment) (integrator_name : string)
  (eqsres : value) (options : gmap string value) : M dae :=
  bind (find_dae_integrator env integrator_name) (fun integrator =>
  match integrator with
  | None =>
      fun s => (Raise (Exn ValueError
                         ("No integrator name match with "
                          +:+ repr integrator_name
                          +:+ " or is not available.")), s)
  | Some cl =>
      bind (call (cl__init__ cl eqsres options)) (fun o =>
      fun s => (Ret {| _integrator :=
                         Some {| inst_class := cl; inst_self := o |} |}, s))
  end).

(** [self._integrator] *)
Definition self_integrator (self : dae) : M instance :=
  fun s => match _integrator self with
           | Some i => (Ret i, s)
           | None =>
               (Raise (Exn AttributeError
                         "'dae' object has no attribute '_integrator'"), s)
           end.

Definition dae_set_options (self : dae) (options : gmap string value)
  : M value :=
  bind (self_integrator self) (fun i =>
  call (cl_set_options (inst_class i) (inst_self i) options)).

Definition dae_solve (self : dae) (tspan y0 yp0 : value) : M value :=
  bind (self_integrator self) (fun i =>
  call (cl_solve (inst_class i) (inst_self i) tspan y0 yp0)).

Definition dae_init_step (self : dae) (t0 y0 yp0 : value)
  (y_ic0_retn yp_ic0_retn : option value) : M value :=
  bind (self_integrator self) (fun i =>
  call (cl_init_step (inst_class i) (inst_self i)
          t0 y0 yp0 y_ic0_retn yp_ic0_retn)).

Definition dae_step (self : dae) (t : value) (y_retn yp_retn : option value)
  : M value :=
  bind (self_integrator self) (fun i =>
  call (cl_step (inst_class i) (inst_self i) t y_retn yp_retn)).

(** [del self._integrator]: the facade after the call and the outcome. *)
Definition dae__del__ (self : dae) : result unit * dae :=
  match _integrator self with
  | Some _ => (Ret tt, {| _integrator := None |})
  | None => (Raise (Exn AttributeError "_integrator"), self)
  end.

(** ** Vocabulary of the statements *)

(** The state of a fresh process: [LOADED = False],
    [integrator_classes = []], nothing printed, nothing imported. *)
Definition initial (w : world) : state :=
  {| LOADED := false; integrator_classes := []; stdout := [];
     imports := []; heap := w |}.

(** The import statements of one discovery pass, in order. *)
Definition probes : list string := ["sundials.ida"; "ddaspkint"; "lsodiint"].

(** The outcomes each block of the discovery is written for: the [ida]
    block for success, [ValueError] and [ImportError], the other two for
    success and [ImportError]. *)
Definition ida_handled (r : result pyclass) : bool :=
  match r with
  | Ret _ => true
  | Raise e => is_ValueError (exn_cls e) || is_ImportError (exn_cls e)
  end.

Definition module_handled (r : result (list pyclass)) : bool :=
  match r with
  | Ret _ => true
  | Raise e => is_ImportError (exn_cls e)
  end.

Definition handled (env : environment) : bool :=
  ida_handled (sundials_ida env)
  && module_handled (ddaspkint env)
  && module_handled (lsodiint env).

(** Every backend loads or fails with [ImportError] or [ValueError]. *)
Definition import_or_value_error {A} (r : result A) : bool :=
  match r with
  | Ret _ => true
  | Raise e => is_ValueError (exn_cls e) || is_ImportError (exn_cls e)
  end.

Definition fails_by_import_or_value_error (env : environment) : bool :=
  import_or_value_error (sundials_ida env)
  && import_or_value_error (ddaspkint env)
  && import_or_value_error (lsodiint env).

(** The classes of the backends that load, in the order of the blocks. *)
Definition loaded_classes (env : environment) : list pyclass :=
  match sundials_ida env with Ret IDA => [IDA] | Raise _ => [] end
  ++ match ddaspkint env with Ret cls => cls | Raise _ => [] end
  ++ match lsodiint env with Ret cls => cls | Raise _ => [] end.

(** One line per backend that fails to load, in the order of the
    blocks. *)
Definition diagnostics (env : environment) : list string :=
  match sundials_ida env with
  | Ret _ => []
  | Raise e => [if is_ValueError (exn_cls e)
                then "Could not load IDA solver " +:+ exn_msg e
                else exn_msg e]
  end
  ++ match ddaspkint env with Ret _ => [] | Raise e => [exn_msg e] end
  ++ match lsodiint env with Ret _ => [] | Raise e => [exn_msg e] end.

(** The state a completed discovery pass is to leave: the flag set, the
    three imports attempted, a line printed per failure, the classes of
    the backends that loaded appended. *)
Definition after_discovery (env : environment) (s : state) : state :=
  {| LOADED := true;
     integrator_classes := integrator_classes s ++ loaded_classes env;
     stdout := stdout s ++ diagnostics env;
     imports := imports s ++ probes;
     heap := heap s |}.

(** Facades constructed one after the other: the state they leave. *)
Fixpoint construct_all (env : environment)
  (requests : list (string * value * gmap string value)) (s : state) : state :=
  match requests with
  | [] => s
  | (name, eqsres, options) :: rest =>
      construct_all env rest (snd (dae__init__ env name eqsres options s))
  end.

(** The public operations as data, to run a facade and its integrator
    side by side. *)
Inductive operation :=
| SetOptions (options : gmap string value)
| Solve (tspan y0 yp0 : value)
| InitStep (t0 y0 yp0 : value) (y_ic0_retn yp_ic0_retn : option value)
| Step (t : value) (y_retn yp_retn : option value).

Definition on_facade (self : dae) (op : operation) : M value :=
  match op with
  | SetOptions options => dae_set_options self options
  | Solve tspan y0 yp0 => dae_solve self tspan y0 yp0
  | InitStep t0 y0 yp0 y_ic0_retn yp_ic0_retn =>
      dae_init_step self t0 y0 yp0 y_ic0_retn yp_ic0_retn
  | Step t y_retn yp_retn => dae_step self t y_retn yp_retn
  end.

Definition on_integrator (i : instance) (op : operation)
  : world -> result value * world :=
  match op with
  | SetOptions options => cl_set_options (inst_class i) (inst_self i) options
  | Solve tspan y0 yp0 => cl_solve (inst_class i) (inst_self i) tspan y0 yp0
  | InitStep t0 y0 yp0 y_ic0_retn yp_ic0_retn =>
      cl_init_step (inst_class i) (inst_self i) t0 y0 yp0 y_ic0_retn yp_ic0_retn
  | Step t y_retn yp_retn => cl_step (inst_class i) (inst_self i) t y_retn yp_retn
  end.

(** A script run through the facade: the results in order and the final
    state.  The caller goes on after an exception. *)
Fixpoint run_facade (self : dae) (ops : list operation) (s : state)
  : list (result value) * state :=
  match ops with
  | [] => ([], s)
  | op :: rest =>
      let (r, s1) := on_facade self op s in
      let (rs, s2) := run_facade self rest s1 in
      (r :: rs, s2)
  end.

(** The same script run on the integrator itself. *)
Fixpoint run_integrator (i : instance) (ops : list operation) (w : world)
  : list (result value) * world :=
  match ops with
  | [] => ([], w)
  | op :: rest =>
      let (r, w1) := on_integrator i op w in
      let (rs, w2) := run_integrator i rest w1 in
      (r :: rs, w2)
  end.

(** Nothing is taken back: the list of classes, the output and the
    import log of [s] are the beginning of those of [s'], and a flag that
    is set stays set. *)
Definition grows (s s' : state) : Prop :=
  integrator_classes s `prefix_of` integrator_classes s'
  /\ stdout s `prefix_of` stdout s'
  /\ imports s `prefix_of` imports s'
  /\ (LOADED s = true -> LOADED s' = true).

(** The state after [n] lookups of the same name in a row. *)
Fixpoint find_repeatedly (env : environment) (name : string) (n : nat)
  (s : state) : state :=
  match n with
  | O => s
  | S n' => find_repeatedly env name n' (snd (find_dae_integrator env name s))
  end.

End Model.

(** An engine that agrees with [re.match(p, s, re.I)] on the patterns
    without special characters: such a pattern matches exactly when it
    is a prefix of the subject, case folded ([re.match] anchors at the
    start of the subject only). *)
Definition literal_engine (re_match : string -> pyval -> result bool) : Prop :=
  forall p s, literal p = true -> re_match p (PyStr s) = Ret (ci_prefix p s).

Arguments pyclass : clear implicits.
Arguments instance : clear implicits.
Arguments state : clear implicits.
Arguments environment : clear implicits.
Arguments M : clear implicits.
Arguments dae : clear implicits.

(** ** A small instance, for the examples

    Values and object handles are numbers and the heap is the log of the
    calls the integrators received. *)

(** The engine restricted to the patterns without special characters;
    the examples use no other pattern. *)
Definition re_match_literal (p : string) (v : pyval) : result bool :=
  match v with
  | PyStr s =>
      if literal p then Ret (ci_prefix p s)
      else Raise (Exn (OtherError "re.error") "pattern with special characters")
  | PyOther => Raise (Exn TypeError "expected string or bytes-like object")
  end.

(** An integrator class that only records its calls; [step] answers with
    the time it was asked for. *)
Definition stub_class (name : string) (dict : gmap string pyval)
  : pyclass nat nat (list string) :=
  {| cl__name__ := name;
     cl_dict := dict;
     cl__init__ := fun _ _ w => (Ret 1, w ++ [name +:+ ".__init__"]);
     cl_set_options := fun _ _ w => (Ret 0, w ++ [name +:+ ".set_options"]);
     cl_solve := fun _ _ _ _ w => (Ret 0, w ++ [name +:+ ".solve"]);
     cl_init_step := fun _ t0 _ _ _ _ w => (Ret t0, w ++ [name +:+ ".init_step"]);
     cl_step := fun _ t _ _ w => (Ret t, w ++ [name +:+ ".step"]) |}.

(** [IDA] exposes no [name] attribute; [ddaspk] and [lsodi] do. *)
Definition IDA := stub_class "IDA" ∅.
Definition ddaspk := stub_class "ddaspk" {[ "name" := PyStr "ddaspk" ]}.
Definition lsodi := stub_class "lsodi" {[ "name" := PyStr "lsodi" ]}.

(** Every backend loads. *)
Definition env_all : environment nat nat (list string) :=
  {| sundials_ida := Ret IDA; ddaspkint := Ret [ddaspk]; lsodiint := Ret [lsodi] |}.

(** SUNDIALS is missing, the Fortran backends load. *)
Definition env_no_ida : environment nat nat (list string) :=
  {| sundials_ida := Raise (Exn ImportError "No module named 'sundials'");
     ddaspkint := Ret [ddaspk]; lsodiint := Ret [lsodi] |}.

(** Importing [ddaspkint] raises a [ValueError]. *)
Definition env_ddaspk_value_error : environment nat nat (list string) :=
  {| sundials_ida := Ret IDA;
     ddaspkint := Raise (Exn ValueError "numpy.dtype has the wrong size");
     lsodiint := Ret [lsodi] |}.

(** SUNDIALS is built for another precision, [ddaspkint] is missing,
    [lsodiint] loads. *)
Definition env_only_lsodi : environment nat nat (list string) :=
  {| sundials_ida := Raise (Exn ValueError "SUNDIALS precision mismatch");
     ddaspkint := Raise (Exn ImportError "No module named 'ddaspk'");
     lsodiint := Ret [lsodi] |}.

(** No backend is installed. *)
Definition env_none : environment nat nat (list string) :=
  {| sundials_ida := Raise (Exn ImportError "No module named 'sundials'");
     ddaspkint := Raise (Exn ImportError "No module named 'ddaspk'");
     lsodiint := Raise (Exn ImportError "No module named 'lsodi'") |}.

(** A second SUNDIALS integrator, and a class known by another name than
    its own. *)
Definition IDAS := stub_class "IDAS" ∅.
Definition Quick := stub_class "Quick" {[ "name" := PyStr "fast" ]}.

(** A process whose flag is set and whose list holds [IDAS] before [IDA],
    and a class that keeps the constructor of [DaeBase]. *)
Definition shadowed : state nat nat (list string) :=
  {| LOADED := true; integrator_classes := [IDAS; IDA; DaeBase; Quick];
     stdout := []; imports := probes; heap := [] |}.

(** A facade bound to an [IDA] instance. *)
Definition ida_facade : dae nat nat (list string) :=
  {| _integrator := Some {| inst_class := IDA; inst_self := 1 |} |}.

(** * Properties *)

(** ** Strings and matching *)

Lemma ci_eq_ci_prefix (p s : string) : ci_eq p s = true -> ci_prefix p s = true.
Proof.
  revert s. induction p as [|a p IH]; intros [|b s]; simpl; try done.
  intros [Hc Hr]%andb_true_iff. by rewrite Hc, (IH _ Hr).
Qed.

Lemma re_match_literal_spec : literal_engine re_match_literal.
Proof. intros p s Hp. unfold re_match_literal. by rewrite Hp. Qed.

Lemma append_empty (s : string) : s +:+ EmptyString = s.
Proof.
  induction s as [|a s IH]; [done|].
  change (String a (s +:+ EmptyString) = String a s). by rewrite IH.
Qed.

Lemma occurs_in_suffix (pre s : string) : occurs_in s (pre +:+ s).
Proof. exists pre, EmptyString. by rewrite append_empty. Qed.

Lemma occurs_in_self (s : string) : occurs_in s s.
Proof. apply (occurs_in_suffix EmptyString). Qed.

Lemma occurs_in_does_not_exsist (name : string) :
  occurs_in name ("Integrator name " +:+ name +:+ " does not exsist").
Proof. by exists "Integrator name ", " does not exsist". Qed.

Section Properties.

Context {value obj world : Type}.
Local Abbreviation pyclass := (pyclass value obj world).
Local Abbreviation instance := (instance value obj world).
Local Abbreviation state := (state value obj world).
Local Abbreviation environment := (environment value obj world).
Local Abbreviation dae := (dae value obj world).
Local Abbreviation M := (M value obj world).

Variable re_match : string -> pyval -> result bool.

(** *** The test of the loop *)

Lemma name_matches_first_test (name : string) (cl : pyclass) :
  re_match name (PyStr (cl__name__ cl)) = Ret true ->
  name_matches re_match name cl = Ret true.
Proof. unfold name_matches. by intros ->. Qed.

Lemma name_matches_no_attribute (name : string) (cl : pyclass) (b : bool) :
  re_match name (PyStr (cl__name__ cl)) = Ret b ->
  hasattr cl name = false ->
  name_matches re_match name cl = Ret b.
Proof. unfold name_matches. intros -> Hattr. destruct b; [done|]. by rewrite Hattr. Qed.

Lemma name_matches_ci_prefix (name : string) (cl : pyclass) :
  literal_engine re_match ->
  literal name = true ->
  ci_prefix name (cl__name__ cl) = true ->
  name_matches re_match name cl = Ret true.
Proof.
  intros Hre Hname Hp. apply name_matches_first_test.
  by rewrite (Hre name (cl__name__ cl) Hname), Hp.
Qed.

(** *** The loop *)

Lemma search_app_no_match (name : string) (before rest : list pyclass) :
  Forall (fun c => name_matches re_match name c = Ret false) before ->
  search re_match name (before ++ rest) = search re_match name rest.
Proof.
  induction 1 as [|c before Hc _ IH]; simpl; [done|]. by rewrite Hc.
Qed.


Lemma search_no_match (name : string) (classes : list pyclass) :
  Forall (fun c => name_matches re_match name c = Ret false) classes ->
  search re_match name classes
  = Raise (Exn ValueError ("Integrator name " +:+ name +:+ " does not exsist")).
Proof.
  intros H. rewrite <- (app_nil_r classes). by rewrite search_app_no_match.
Qed.

Lemma search_result (name : string) (classes : list pyclass) :
  match search re_match name classes with
  | Ret (Some cl) => cl ∈ classes /\ name_matches re_match name cl = Ret true
  | Ret None => False
  | Raise _ => True
  end.
Proof.
  induction classes as [|c classes IH]; simpl; [done|].
  destruct (name_matches re_match name c) as [[|]|e] eqn:Hc; [|..|done].
  - split; [apply list_elem_of_here|done].
  - destruct (search re_match name classes) as [[cl|]|e]; [|done..].
    destruct IH as [Hin Hm]. split; [by apply list_elem_of_further|done].
Qed.

(** *** Discovery *)

Lemma discover_handled (env : environment) (s : state) :
  handled env = true ->
  discover env s = (Ret tt, after_discovery env s).
Proof.
  unfold handled, after_discovery, loaded_classes, diagnostics, probes.
  destruct env as [ida dd ls]; simpl.
  intros [[Hida Hdd]%andb_true_iff Hls]%andb_true_iff.
  unfold discover, bind, load_ida, load_module, import_module, register,
    print, set_LOADED; simpl.
  destruct ida as [IDA|[c1 m1]], dd as [cls2|[c2 m2]], ls as [cls3|[c3 m3]];
    simpl in *;
    try (destruct c1; try discriminate); try (destruct c2; try discriminate);
    try (destruct c3; try discriminate); simpl;
    rewrite <- ?app_assoc; simpl; rewrite ?app_nil_r; reflexivity.
Qed.

(** The pass runs through exactly in these environments. *)
Lemma discover_returns_iff_handled (env : environment) (s : state) :
  fst (discover env s) = Ret tt <-> handled env = true.
Proof.
  split; [|intros H; by rewrite discover_handled].
  unfold handled, discover, bind, load_ida, load_module, import_module,
    register, print, set_LOADED.
  destruct env as [ida dd ls]; simpl.
  destruct ida as [IDA|[c1 m1]], dd as [cls2|[c2 m2]], ls as [cls3|[c3 m3]];
    simpl;
    try (destruct c1; simpl); try (destruct c2; simpl);
    try (destruct c3; simpl); done.
Qed.

Lemma ensure_loaded_when_loaded (env : environment) (s : state) :
  LOADED s = true -> ensure_loaded env s = (Ret tt, s).
Proof. unfold ensure_loaded. by intros ->. Qed.

Lemma find_when_loaded (env : environment) (name : string) (s : state) :
  LOADED s = true ->
  find_dae_integrator re_match env name s
  = (search re_match name (integrator_classes s), s).
Proof.
  intros H. unfold find_dae_integrator, bind.
  by rewrite ensure_loaded_when_loaded.
Qed.

Lemma find_first_call (env : environment) (name : string) (s : state) :
  LOADED s = false -> handled env = true ->
  find_dae_integrator re_match env name s
  = (search re_match name (integrator_classes (after_discovery env s)),
     after_discovery env s).
Proof.
  intros H Henv. unfold find_dae_integrator, bind, ensure_loaded.
  by rewrite H, discover_handled.
Qed.

(** *** The facade *)

Lemma set_heap_same (s : state) : set_heap (heap s) s = s.
Proof. by destruct s. Qed.

Lemma call_on_heap {A} (m : world -> result A * world) (s : state) :
  call m s = (fst (m (heap s)), set_heap (snd (m (heap s))) s).
Proof. unfold call. by destruct (m (heap s)). Qed.

(** The constructor writes the registry during the lookup only. *)
Lemma dae__init__registry (env : environment) (name : string) (eqsres : value)
  (options : gmap string value) (s : state) :
  let s1 := snd (find_dae_integrator re_match env name s) in
  let s' := snd (dae__init__ re_match env name eqsres options s) in
  LOADED s' = LOADED s1 /\ integrator_classes s' = integrator_classes s1
  /\ stdout s' = stdout s1 /\ imports s' = imports s1.
Proof.
  unfold dae__init__, bind.
  destruct (find_dae_integrator re_match env name s) as [[[cl|]|e] s1]; simpl;
    [|done..].
  rewrite call_on_heap.
  by destruct (cl__init__ cl eqsres options (heap s1)) as [[o|e] w].
Qed.

Lemma construct_all_when_loaded (env : environment)
  (requests : list (string * value * gmap string value)) (s : state) :
  LOADED s = true ->
  let sn := construct_all re_match env requests s in
  LOADED sn = true /\ integrator_classes sn = integrator_classes s
  /\ stdout sn = stdout s /\ imports sn = imports s.
Proof.
  revert s. induction requests as [|[[name eqsres] options] rest IH];
    intros s Hs; simpl; [done|].
  pose proof (dae__init__registry env name eqsres options s) as H.
  rewrite find_when_loaded in H by done. simpl in H.
  destruct H as (HL & Hc & Ho & Hi).
  destruct (IH (snd (dae__init__ re_match env name eqsres options s)))
    as (HL' & Hc' & Ho' & Hi'); [congruence|].
  repeat split; congruence.
Qed.

(** ** The claims *)

(** C1 (amended): the lookup matches a name against a class by
    [re.match], which anchors at the start of the class name only.  For
    every requested name made of letters, digits and underscores and
    every class: the class matches whenever the name is a prefix of its
    [__name__], case folded, hence also whenever the two are equal up to
    case; and for a class with no attribute called by the requested
    name the class matches exactly when the name is such a prefix. *)
Theorem name_matching_is_prefix_matching (name : string) (cl : pyclass) :
  literal_engine re_match ->
  literal name = true ->
  (ci_prefix name (cl__name__ cl) = true ->
   name_matches re_match name cl = Ret true)
  /\ (ci_eq name (cl__name__ cl) = true ->
      name_matches re_match name cl = Ret true)
  /\ (hasattr cl name = false ->
      name_matches re_match name cl = Ret (ci_prefix name (cl__name__ cl))).
Proof.
  intros Hre Hname. split; [|split].
  - by apply name_matches_ci_prefix.
  - intros Heq%ci_eq_ci_prefix. by apply name_matches_ci_prefix.
  - intros Hattr. apply name_matches_no_attribute; [|done].
    apply (Hre name (cl__name__ cl) Hname).
Qed.

(** C6: each public operation of the facade is the operation of the same
    name of the integrator it owns, with the same arguments: same result,
    same effect on the heap, nothing else of the state touched; and so
    for every script of operations. *)
Theorem facade_is_pass_through (i : instance) (s : state) :
  let self := {| _integrator := Some i |} in
  (forall options,
      dae_set_options self options s
      = call (cl_set_options (inst_class i) (inst_self i) options) s)
  /\ (forall tspan y0 yp0,
         dae_solve self tspan y0 yp0 s
         = call (cl_solve (inst_class i) (inst_self i) tspan y0 yp0) s)
  /\ (forall t0 y0 yp0 y_ic0_retn yp_ic0_retn,
         dae_init_step self t0 y0 yp0 y_ic0_retn yp_ic0_retn s
         = call (cl_init_step (inst_class i) (inst_self i)
                   t0 y0 yp0 y_ic0_retn yp_ic0_retn) s)
  /\ (forall t y_retn yp_retn,
         dae_step self t y_retn yp_retn s
         = call (cl_step (inst_class i) (inst_self i) t y_retn yp_retn) s)
  /\ (forall ops,
         run_facade self ops s
         = (fst (run_integrator i ops (heap s)),
            set_heap (snd (run_integrator i ops (heap s))) s)).
Proof.
  simpl. repeat split; try done.
  intros ops. revert s. induction ops as [|op ops IH]; intros s; simpl.
  - by rewrite set_heap_same.
  - assert (on_facade {| _integrator := Some i |} op s
            = call (on_integrator i op) s) as -> by by destruct op.
    rewrite call_on_heap.
    destruct (on_integrator i op (heap s)) as [r w1]; simpl.
    rewrite IH; simpl.
    by destruct (run_integrator i ops w1) as [rs w2].
Qed.

(** C8 (amended): disposal deletes the facade's reference to its
    integrator, once; disposing of the same facade again deletes nothing
    and raises [AttributeError]. *)
Theorem disposal_releases_then_fails (i : instance) :
  let self : dae := {| _integrator := Some i |} in
  dae__del__ self = (Ret tt, {| _integrator := None |})
  /\ dae__del__ (snd (dae__del__ self))
     = (Raise (Exn AttributeError "_integrator"), {| _integrator := None |}).
Proof. done. Qed.

(** C9: every operation of [DaeBase] raises [NotImplementedError] and
    leaves the heap as it was, whatever the arguments; so does every
    operation of a facade bound to an instance of [DaeBase].  None
    returns a value. *)
Theorem DaeBase_not_implemented :
  exn_cls not_implemented = NotImplementedError
  /\ (forall Rfn options (w : world),
         cl__init__ (DaeBase : pyclass) Rfn options w = (Raise not_implemented, w))
  /\ (forall self options (w : world),
         cl_set_options (DaeBase : pyclass) self options w
         = (Raise not_implemented, w))
  /\ (forall self tspan y0 yp0 (w : world),
         cl_solve (DaeBase : pyclass) self tspan y0 yp0 w
         = (Raise not_implemented, w))
  /\ (forall self t0 y0 yp0 y_ic0_retn yp_ic0_retn (w : world),
         cl_init_step (DaeBase : pyclass) self t0 y0 yp0 y_ic0_retn yp_ic0_retn w
         = (Raise not_implemented, w))
  /\ (forall self t y_retn yp_retn (w : world),
         cl_step (DaeBase : pyclass) self t y_retn yp_retn w
         = (Raise not_implemented, w))
  /\ (forall (self : obj) op (s : state),
         on_facade {| _integrator :=
                        Some {| inst_class := DaeBase; inst_self := self |} |} op s
         = (Raise not_implemented, s)).
Proof.
  repeat split; try done.
  intros self op s. destruct op; simpl;
    unfold dae_set_options, dae_solve, dae_init_step, dae_step, bind, call;
    simpl; by rewrite set_heap_same.
Qed.

(** C10: the lookup returns a class of the list or raises; it never
    returns [None].  The branch of the constructor for [None] is dead:
    whatever stands in its place, the constructor behaves the same. *)
Theorem find_never_returns_None (env : environment) (name : string) (s : state) :
  match find_dae_integrator re_match env name s with
  | (Ret (Some cl), s') => cl ∈ integrator_classes s'
  | (Ret None, _) => False
  | (Raise _, _) => True
  end
  /\ forall eqsres options (alt : M dae),
      dae__init__ re_match env name eqsres options s
      = bind (find_dae_integrator re_match env name) (fun integrator =>
          match integrator with
          | None => alt
          | Some cl =>
              bind (call (cl__init__ cl eqsres options)) (fun o =>
              fun s' => (Ret {| _integrator :=
                                  Some {| inst_class := cl; inst_self := o |} |},
                         s'))
          end) s.
Proof.
  assert (match find_dae_integrator re_match env name s with
          | (Ret (Some cl), s') => cl ∈ integrator_classes s'
          | (Ret None, _) => False
          | (Raise _, _) => True
          end) as H.
  { unfold find_dae_integrator, bind.
    destruct (ensure_loaded env s) as [[[]|e] s1]; [|done].
    pose proof (search_result name (integrator_classes s1)) as H.
    destruct (search re_match name (integrator_classes s1)) as [[cl|]|e];
      [by destruct H|done..]. }
  split; [done|].
  intros eqsres options alt. unfold dae__init__, bind.
  by destruct (find_dae_integrator re_match env name s) as [[[cl|]|e] s1].
Qed.

(** A name that the test rejects for every class of the list is
    reported by a [ValueError] that quotes it, and no facade is built. *)
Lemma unmatched_name_raises_ValueError (env : environment) (name : string)
  (eqsres : value) (options : gmap string value) (s s1 : state) :
  ensure_loaded env s = (Ret tt, s1) ->
  Forall (fun c => name_matches re_match name c = Ret false)
    (integrator_classes s1) ->
  exists msg,
    dae__init__ re_match env name eqsres options s
    = (Raise (Exn ValueError msg), s1)
    /\ occurs_in name msg.
Proof.
  intros Hload Hno.
  exists ("Integrator name " +:+ name +:+ " does not exsist").
  split; [|apply occurs_in_does_not_exsist].
  unfold dae__init__, find_dae_integrator, bind. rewrite Hload.
  by rewrite search_no_match.
Qed.

(** C2 (amended): when the first construction of a facade finds the flag
    unset and its discovery pass runs through, the lookup has attempted
    the three imports, once each, and set [LOADED]; every later construction,
    however many, imports nothing, prints nothing and leaves the list of
    classes as it is; and a lookup that finds the flag set touches no part
    of the state and answers from the list alone, whatever the
    environment. *)
Theorem discovery_runs_once (env : environment) (s0 : state)
  (name : string) (eqsres : value) (options : gmap string value)
  (requests : list (string * value * gmap string value)) :
  LOADED s0 = false ->
  fst (discover env s0) = Ret tt ->
  let s1 := snd (dae__init__ re_match env name eqsres options s0) in
  let sn := construct_all re_match env requests s1 in
  (LOADED (snd (find_dae_integrator re_match env name s0)) = true
   /\ imports (snd (find_dae_integrator re_match env name s0))
      = imports s0 ++ probes)
  /\ (LOADED s1 = true /\ imports s1 = imports s0 ++ probes)
  /\ (LOADED sn = true /\ imports sn = imports s1
      /\ integrator_classes sn = integrator_classes s1
      /\ stdout sn = stdout s1)
  /\ (forall (env' : environment) name' (s : state),
         LOADED s = true ->
         find_dae_integrator re_match env' name' s
         = (search re_match name' (integrator_classes s), s)).
Proof.
  intros Hs0 Henv%discover_returns_iff_handled. simpl.
  pose proof (dae__init__registry env name eqsres options s0) as H.
  rewrite find_first_call in * by done. simpl in H.
  destruct H as (HL & Hc & Ho & Hi).
  split; [done|]. split; [done|]. split.
  - by destruct (construct_all_when_loaded env requests _ HL) as (? & ? & ? & ?).
  - intros env' name' s Hs. by apply find_when_loaded.
Qed.

(** C3 (amended): a discovery in which the [ida] block fails with
    [ImportError] or [ValueError], or not at all, and the [ddaspk] and
    [lsodi] blocks fail with [ImportError], or not at all, raises
    nothing: it attempts the three imports in order, prints one line per
    failure, which quotes the message of the exception, appends the class
    of every backend that loads, and sets the flag. *)
Theorem discovery_tolerates_handled_failures (env : environment) (s : state) :
  handled env = true ->
  let s' := snd (discover env s) in
  fst (discover env s) = Ret tt
  /\ imports s' = imports s ++ probes
  /\ stdout s' = stdout s ++ diagnostics env
  /\ integrator_classes s' = integrator_classes s ++ loaded_classes env
  /\ LOADED s' = true
  /\ (forall IDA, sundials_ida env = Ret IDA -> IDA ∈ integrator_classes s')
  /\ (forall cls cl,
         ddaspkint env = Ret cls \/ lsodiint env = Ret cls ->
         cl ∈ cls -> cl ∈ integrator_classes s')
  /\ (forall e,
         sundials_ida env = Raise e \/ ddaspkint env = Raise e
         \/ lsodiint env = Raise e ->
         exists line, line ∈ stdout s' /\ occurs_in (exn_msg e) line).
Proof.
  intros Henv. rewrite discover_handled by done. simpl.
  repeat split; try done.
  - intros IDA H. unfold loaded_classes. rewrite H.
    apply elem_of_app; right. apply elem_of_app; left. apply list_elem_of_here.
  - intros cls cl [H|H] Hin; unfold loaded_classes; rewrite H;
      apply elem_of_app; right; apply elem_of_app; right;
      apply elem_of_app; [by left|by right].
  - intros e H. unfold diagnostics.
    destruct H as [H|[H|H]]; rewrite H.
    + eexists. split.
      * apply elem_of_app; right. apply elem_of_app; left. apply list_elem_of_here.
      * destruct (is_ValueError (exn_cls e)).
        -- apply occurs_in_suffix.
        -- apply occurs_in_self.
    + exists (exn_msg e). split.
      * apply elem_of_app; right. apply elem_of_app; right.
        apply elem_of_app; left. apply list_elem_of_here.
      * apply occurs_in_self.
    + exists (exn_msg e). split.
      * apply elem_of_app; right. apply elem_of_app; right.
        apply elem_of_app; right. apply list_elem_of_here.
      * apply occurs_in_self.
Qed.


(** C7 (amended): the facade keeps no record of [init_step].  On a
    facade as its constructor returns it, hence before any [init_step],
    [step] is the [step] of the integrator it owns, with the same
    arguments, in whatever state: it returns or raises what that
    returns or raises. *)
Theorem step_is_forwarded_unchecked (env : environment) (name : string)
  (eqsres : value) (options : gmap string value) (s s' : state) (self : dae) :
  dae__init__ re_match env name eqsres options s = (Ret self, s') ->
  exists i,
    _integrator self = Some i
    /\ forall t y_retn yp_retn (s'' : state),
        dae_step self t y_retn yp_retn s''
        = call (cl_step (inst_class i) (inst_self i) t y_retn yp_retn) s''.
Proof.
  unfold dae__init__, bind.
  destruct (find_dae_integrator re_match env name s) as [[[cl|]|e] s1];
    [|done..].
  rewrite call_on_heap.
  destruct (cl__init__ cl eqsres options (heap s1)) as [[o|e] w]; simpl; [|done].
  intros [= <- <-]. by eexists.
Qed.

End Properties.

(** ** The claims on the small instance *)

(** C1 (amended) on [ida]: it matches [IDA] and not [lsodi]. *)
Lemma name_matching_is_prefix_matching_witness :
  literal "ida" = true
  /\ name_matches re_match_literal "ida" IDA = Ret true
  /\ name_matches re_match_literal "ida" lsodi = Ret false.
Proof.
  destruct (name_matching_is_prefix_matching re_match_literal "ida" IDA
              re_match_literal_spec eq_refl) as (_ & Heq & _).
  destruct (name_matching_is_prefix_matching re_match_literal "ida" lsodi
              re_match_literal_spec eq_refl) as (_ & _ & Hno).
  split; [reflexivity|]. split; [apply Heq; reflexivity|apply Hno; reflexivity].
Defined.

(** C1, as stated, fails: [I] and [lso] equal no class name and no
    [name] attribute, [IDA] has no [name] attribute at all, and yet [I]
    resolves to [IDA] and [lso] to [lsodi]. *)
Lemma partial_name_resolves :
  ci_eq "I" (cl__name__ IDA) = false
  /\ hasattr IDA "name" = false
  /\ name_matches re_match_literal "I" IDA = Ret true
  /\ fst (find_dae_integrator re_match_literal env_all "I" (initial []))
     = Ret (Some IDA)
  /\ ci_eq "lso" (cl__name__ lsodi) = false
  /\ getattr lsodi "name" = Ret (PyStr "lsodi")
  /\ ci_eq "lso" "lsodi" = false
  /\ fst (find_dae_integrator re_match_literal env_all "lso" (initial []))
     = Ret (Some lsodi).
Proof. repeat split. Qed.

(** C2 with SUNDIALS missing: four facades, one discovery. *)
Lemma discovery_runs_once_witness :
  let s1 := snd (dae__init__ re_match_literal env_no_ida "lsodi" 0 ∅ (initial [])) in
  let sn := construct_all re_match_literal env_no_ida
              [("ida", 0, ∅); ("ddaspk", 7, ∅); ("lsodi", 0, ∅)] s1 in
  LOADED s1 = true /\ imports s1 = probes /\ imports sn = probes
  /\ integrator_classes sn = [ddaspk; lsodi].
Proof.
  destruct (discovery_runs_once re_match_literal env_no_ida (initial [])
              "lsodi" 0 ∅ [("ida", 0, ∅); ("ddaspk", 7, ∅); ("lsodi", 0, ∅)]
              eq_refl eq_refl)
    as (_ & (HL & Hi) & (_ & Hin & Hcn & _) & _).
  simpl. split; [exact HL|]. split; [exact Hi|]. split.
  - exact (eq_trans Hin Hi).
  - exact Hcn.
Defined.

(** C3 (amended) with two backends failing: two lines printed, the third
    backend listed. *)
Lemma discovery_tolerates_handled_failures_witness :
  let s' := snd (discover env_only_lsodi (initial [])) in
  fst (discover env_only_lsodi (initial [])) = Ret tt
  /\ imports s' = probes
  /\ stdout s' = ["Could not load IDA solver SUNDIALS precision mismatch";
                  "No module named 'ddaspk'"]
  /\ integrator_classes s' = [lsodi]
  /\ LOADED s' = true.
Proof.
  destruct (discovery_tolerates_handled_failures env_only_lsodi (initial [])
              eq_refl) as (Hr & Hi & Ho & Hc & HL & _).
  exact (conj Hr (conj Hi (conj Ho (conj Hc HL)))).
Defined.

(** C3, as stated, fails: a [ValueError] raised while [ddaspkint] is
    imported is a failure to load one backend of the kinds the claim
    names; it leaves the discovery, [lsodiint] is never imported, the flag
    stays unset, and the facade for the backend that did load is not
    built. *)
Lemma ddaspk_value_error_propagates :
  fails_by_import_or_value_error env_ddaspk_value_error = true
  /\ fst (discover env_ddaspk_value_error (initial []))
     = Raise (Exn ValueError "numpy.dtype has the wrong size")
  /\ imports (snd (discover env_ddaspk_value_error (initial [])))
     = ["sundials.ida"; "ddaspkint"]
  /\ integrator_classes (snd (discover env_ddaspk_value_error (initial [])))
     = [IDA]
  /\ stdout (snd (discover env_ddaspk_value_error (initial []))) = []
  /\ LOADED (snd (discover env_ddaspk_value_error (initial []))) = false
  /\ fst (dae__init__ re_match_literal env_ddaspk_value_error "ida" 0 ∅ (initial []))
     = Raise (Exn ValueError "numpy.dtype has the wrong size").
Proof. repeat split. Qed.

(** C2, as stated, fails: with a [ValueError] from [ddaspkint] the first
    lookup of a fresh process does not attempt all the imports and does
    not set the flag, and the second lookup does not skip the discovery:
    it imports again, and appends [IDA] a second time.  So does the
    second construction of a facade. *)
Lemma aborted_discovery_is_repeated :
  let s1 := snd (find_dae_integrator re_match_literal env_ddaspk_value_error
                   "ida" (initial [])) in
  let s2 := snd (find_dae_integrator re_match_literal env_ddaspk_value_error
                   "ida" s1) in
  let s2' := construct_all re_match_literal env_ddaspk_value_error
               [("ida", 0, ∅); ("ida", 0, ∅)] (initial []) in
  handled env_ddaspk_value_error = false
  /\ LOADED s1 = false
  /\ imports s1 = ["sundials.ida"; "ddaspkint"]
  /\ LOADED s2 = false
  /\ imports s2 = ["sundials.ida"; "ddaspkint"; "sundials.ida"; "ddaspkint"]
  /\ integrator_classes s2 = [IDA; IDA]
  /\ LOADED s2' = false
  /\ imports s2' = ["sundials.ida"; "ddaspkint"; "sundials.ida"; "ddaspkint"]
  /\ integrator_classes s2' = [IDA; IDA].
Proof. repeat split. Qed.

(** C4: the requested name [solve] matches no class, and the
    constructor raises [AttributeError], in a message without the name:
    [hasattr(cl, name)] asks for an attribute called [solve], which every
    integrator class has, and [cl.name] then reads an attribute [IDA]
    does not have.  A name that is no attribute of the classes gets the
    [ValueError] that quotes it. *)
Theorem attribute_name_breaks_lookup :
  Forall (fun cl => ci_prefix "solve" (cl__name__ cl) = false) [IDA; ddaspk; lsodi]
  /\ hasattr IDA "solve" = true
  /\ hasattr IDA "name" = false
  /\ dae__init__ re_match_literal env_all "solve" 0 ∅ (initial [])
     = (Raise (Exn AttributeError "type object 'IDA' has no attribute 'name'"),
        after_discovery env_all (initial []))
  /\ dae__init__ re_match_literal env_all "nonexistent" 0 ∅ (initial [])
     = (Raise (Exn ValueError "Integrator name nonexistent does not exsist"),
        after_discovery env_all (initial [])).
Proof. split; [by repeat constructor|]. repeat split. Qed.



(** The request for the [name] attribute of a class is not resolved
    either: [Quick] carries [name = "fast"], and [fast], no attribute of
    the class, is rejected before [cl.name] is read. *)
Lemma alias_request_is_not_resolved :
  getattr Quick "name" = Ret (PyStr "fast")
  /\ name_matches re_match_literal "fast" Quick = Ret false
  /\ fst (dae__init__ re_match_literal env_all "fast" 0 ∅ shadowed)
     = Raise (Exn ValueError "Integrator name fast does not exsist").
Proof. repeat split. Qed.

(** C7 (amended) on a facade for [ida]. *)
Lemma step_is_forwarded_unchecked_witness :
  dae_step ida_facade 5 None None
    (snd (dae__init__ re_match_literal env_all "ida" 0 ∅ (initial [])))
  = call (cl_step IDA 1 5 None None)
      (snd (dae__init__ re_match_literal env_all "ida" 0 ∅ (initial []))).
Proof.
  destruct (step_is_forwarded_unchecked re_match_literal env_all "ida" 0 ∅
              (initial [])
              (snd (dae__init__ re_match_literal env_all "ida" 0 ∅ (initial [])))
              ida_facade eq_refl) as (i & Hi & Hstep).
  simpl in Hi. injection Hi as <-. apply Hstep.
Defined.

(** C7, as stated, fails: on a facade fresh from its constructor, whose
    integrator has seen no [init_step], [step] returns a value; nothing
    is raised. *)
Lemma step_before_init_step_returns :
  dae__init__ re_match_literal env_all "ida" 0 ∅ (initial [])
  = (Ret ida_facade, set_heap ["IDA.__init__"] (after_discovery env_all (initial [])))
  /\ dae_step ida_facade 5 None None
       (set_heap ["IDA.__init__"] (after_discovery env_all (initial [])))
     = (Ret 5,
        set_heap ["IDA.__init__"; "IDA.step"] (after_discovery env_all (initial []))).
Proof. repeat split. Qed.

(** C8, as stated, fails: the second disposal of a facade is an
    [AttributeError], not a call without effect. *)
Lemma second_disposal_raises :
  fst (dae__del__ ida_facade) = Ret tt
  /\ fst (dae__del__ (snd (dae__del__ ida_facade)))
     = Raise (Exn AttributeError "_integrator")
  /\ fst (dae__del__ (snd (dae__del__ ida_facade))) <> Ret tt.
Proof. repeat split. discriminate. Qed.

(** * Further properties of the lookup and of the facade *)

(** ** Case folding *)

Lemma ci_char_trans (a b c : ascii) :
  ci_char a b = true -> ci_char b c = true -> ci_char a c = true.
Proof.
  unfold ci_char. intros H1%Ascii.eqb_eq H2%Ascii.eqb_eq.
  apply Ascii.eqb_eq. congruence.
Qed.

Lemma ci_char_sym (a b : ascii) : ci_char a b = true -> ci_char b a = true.
Proof.
  unfold ci_char. intros H%Ascii.eqb_eq. apply Ascii.eqb_eq. congruence.
Qed.

Lemma ci_eq_sym (p q : string) : ci_eq p q = true -> ci_eq q p = true.
Proof.
  revert q. induction p as [|a p IH]; intros [|b q]; simpl; try done.
  intros [Hc Hr]%andb_true_iff. by rewrite (ci_char_sym _ _ Hc), (IH _ Hr).
Qed.

Lemma ci_prefix_ci_eq_true (p q s : string) :
  ci_eq p q = true -> ci_prefix p s = true -> ci_prefix q s = true.
Proof.
  revert q s. induction p as [|a p IH]; intros [|b q] [|c s]; simpl; try done.
  intros [Hab Hpq]%andb_true_iff [Hac Hps]%andb_true_iff.
  rewrite (ci_char_trans b a c), (IH q s); try done. by apply ci_char_sym.
Qed.

Lemma ci_prefix_ci_eq (p q s : string) :
  ci_eq p q = true -> ci_prefix p s = ci_prefix q s.
Proof.
  intros H. destruct (ci_prefix p s) eqn:Hp.
  - symmetry. by apply (ci_prefix_ci_eq_true p q s).
  - destruct (ci_prefix q s) eqn:Hq; [|done].
    apply ci_eq_sym in H. by rewrite (ci_prefix_ci_eq_true q p s H Hq) in Hp.
Qed.

Lemma ci_prefix_length (p s : string) :
  ci_prefix p s = true -> String.length p <= String.length s.
Proof.
  revert s. induction p as [|a p IH]; intros [|b s]; simpl; try done; [lia..|].
  intros [_ Hr]%andb_true_iff. apply IH in Hr. lia.
Qed.

Section Further.

Context {value obj world : Type}.
Local Abbreviation pyclass := (pyclass value obj world).
Local Abbreviation instance := (instance value obj world).
Local Abbreviation state := (state value obj world).
Local Abbreviation environment := (environment value obj world).
Local Abbreviation dae := (dae value obj world).

Variable re_match : string -> pyval -> result bool.

(** ** The loop over the classes *)

(** X14: a class the lookup returns is the first match: the classes
    listed before it were all tested and rejected, without an exception,
    and its own test was truthy. *)
Theorem search_returns_first_match (name : string) (classes : list pyclass)
  (cl : pyclass) :
  search re_match name classes = Ret (Some cl) ->
  exists before after,
    classes = before ++ cl :: after
    /\ Forall (fun c => name_matches re_match name c = Ret false) before
    /\ name_matches re_match name cl = Ret true.
Proof.
  induction classes as [|c classes IH]; simpl; [done|].
  destruct (name_matches re_match name c) as [[|]|e] eqn:Hc; [|..|done].
  - intros [= <-]. by exists [], classes.
  - intros (before & after & -> & Hb & Hcl)%IH.
    exists (c :: before), after. repeat split; [|done]. by constructor.
Qed.

(** X5: an exception in the test of one class ends the lookup: the
    classes listed after it are not looked at, whether or not they
    match. *)
Theorem failing_test_stops_search (name : string) (before after : list pyclass)
  (cl : pyclass) (e : exn) :
  Forall (fun c => name_matches re_match name c = Ret false) before ->
  name_matches re_match name cl = Raise e ->
  search re_match name (before ++ cl :: after) = Raise e.
Proof.
  intros Hb Hcl. rewrite search_app_no_match by done. simpl. by rewrite Hcl.
Qed.

(** X6: a class without a [name] attribute makes the lookup raise
    [AttributeError] for every requested name that is one of the five
    contract methods and no beginning of the class name: the guard asks
    for an attribute called by the request and the test then reads
    [cl.name]. *)
Theorem method_name_request_raises_AttributeError (name : string)
  (before after : list pyclass) (cl : pyclass) :
  literal_engine re_match ->
  name ∈ contract_methods ->
  ci_prefix name (cl__name__ cl) = false ->
  cl_dict cl !! "name" = None ->
  Forall (fun c => name_matches re_match name c = Ret false) before ->
  search re_match name (before ++ cl :: after)
  = Raise (Exn AttributeError
             ("type object '" +:+ cl__name__ cl +:+ "' has no attribute 'name'")).
Proof.
  intros Hre Hin Hp Hno Hb. rewrite search_app_no_match by done. simpl.
  assert (literal name = true /\ hasattr cl name = true) as [Hlit Hattr].
  { unfold contract_methods in Hin. unfold hasattr, getattr, contract_methods.
    repeat (apply elem_of_cons in Hin as [->|Hin]; [by split|]).
    by apply elem_of_nil in Hin. }
  unfold name_matches. rewrite (Hre name (cl__name__ cl) Hlit), Hp, Hattr.
  unfold getattr. simpl. by rewrite Hno.
Qed.

(** X3: the empty name matches every class, so it resolves to the class
    listed first. *)
Theorem empty_name_binds_first_class (env : environment) (s s1 : state)
  (cl : pyclass) (rest : list pyclass) :
  literal_engine re_match ->
  ensure_loaded env s = (Ret tt, s1) ->
  integrator_classes s1 = cl :: rest ->
  find_dae_integrator re_match env EmptyString s = (Ret (Some cl), s1).
Proof.
  intros Hre Hload Hreg. unfold find_dae_integrator, bind.
  rewrite Hload, Hreg. simpl.
  by rewrite (name_matches_ci_prefix re_match EmptyString cl Hre).
Qed.

(** X13: only beginnings of a class name match it: a name longer than
    the class name, and no attribute of the class, is rejected. *)
Theorem longer_name_does_not_match (name : string) (cl : pyclass) :
  literal_engine re_match ->
  literal name = true ->
  String.length (cl__name__ cl) < String.length name ->
  hasattr cl name = false ->
  name_matches re_match name cl = Ret false.
Proof.
  intros Hre Hlit Hlen Hattr.
  apply name_matches_no_attribute; [|done].
  rewrite (Hre name (cl__name__ cl) Hlit).
  destruct (ci_prefix name (cl__name__ cl)) eqn:Hp; [|done].
  apply ci_prefix_length in Hp. lia.
Qed.

(** X4: two spellings of a name that differ in case only resolve to the
    same class, or both to none, in a list where neither spelling is an
    attribute of a class. *)
Theorem case_variants_resolve_alike (name1 name2 : string)
  (classes : list pyclass) (cl : pyclass) :
  literal_engine re_match ->
  literal name1 = true ->
  literal name2 = true ->
  ci_eq name1 name2 = true ->
  Forall (fun c => hasattr c name1 = false /\ hasattr c name2 = false) classes ->
  search re_match name1 classes = Ret (Some cl)
  <-> search re_match name2 classes = Ret (Some cl).
Proof.
  intros Hre H1 H2 Heq Hattr.
  induction Hattr as [|c classes [Ha1 Ha2] _ IH]; simpl; [done|].
  rewrite (name_matches_no_attribute re_match name1 c _ (Hre _ _ H1) Ha1).
  rewrite (name_matches_no_attribute re_match name2 c _ (Hre _ _ H2) Ha2).
  rewrite (ci_prefix_ci_eq name1 name2 _ Heq).
  by destruct (ci_prefix name2 (cl__name__ c)).
Qed.

(** The lookup never returns [None]. *)
Lemma find_never_returns_None_aux (env : environment) (name : string) (s : state) :
  fst (find_dae_integrator re_match env name s) <> Ret None.
Proof.
  unfold find_dae_integrator, bind.
  destruct (ensure_loaded env s) as [[[]|e] s1]; [|done]. simpl.
  pose proof (search_result re_match name (integrator_classes s1)) as H.
  by destruct (search re_match name (integrator_classes s1)) as [[cl|]|e'].
Qed.

(** ** Discovery *)

Lemma grows_refl (s : state) : grows s s.
Proof. by repeat split. Qed.

Lemma grows_trans (s1 s2 s3 : state) : grows s1 s2 -> grows s2 s3 -> grows s1 s3.
Proof.
  intros (Hc & Ho & Hi & HL) (Hc' & Ho' & Hi' & HL').
  repeat split; [by etrans..|auto].
Qed.

Lemma bind_grows {A B} (m : M value obj world A) (f : A -> M value obj world B)
  (s : state) :
  (forall s, grows s (snd (m s))) ->
  (forall a s, grows s (snd (f a s))) ->
  grows s (snd (bind m f s)).
Proof.
  intros Hm Hf. unfold bind. specialize (Hm s).
  destruct (m s) as [[a|e] s']; simpl in *; [|done].
  by eapply grows_trans.
Qed.

Lemma print_grows (line : string) (s : state) : grows s (snd (print line s)).
Proof. repeat split; simpl; try done. by apply prefix_app_r. Qed.

Lemma register_grows (cls : list pyclass) (s : state) :
  grows s (snd (register cls s)).
Proof. repeat split; simpl; try done. by apply prefix_app_r. Qed.

Lemma import_module_grows {A} (module : string) (outcome : result A) (s : state) :
  grows s (snd (import_module module outcome s)).
Proof. repeat split; simpl; try done. by apply prefix_app_r. Qed.

Lemma load_ida_grows (env : environment) (s : state) :
  grows s (snd (load_ida env s)).
Proof.
  unfold load_ida.
  pose proof (import_module_grows "sundials.ida" (sundials_ida env) s) as H.
  destruct (import_module "sundials.ida" (sundials_ida env) s) as [[IDA|e] s1];
    simpl in H.
  - eapply grows_trans; [done|apply register_grows].
  - destruct (is_ValueError (exn_cls e));
      [eapply grows_trans; [done|apply print_grows]|].
    destruct (is_ImportError (exn_cls e)); [|done].
    eapply grows_trans; [done|apply print_grows].
Qed.

Lemma load_module_grows (module : string) (outcome : result (list pyclass))
  (s : state) :
  grows s (snd (load_module module outcome s)).
Proof.
  unfold load_module.
  pose proof (import_module_grows module outcome s) as H.
  destruct (import_module module outcome s) as [[cls|e] s1]; simpl in H.
  - eapply grows_trans; [done|apply register_grows].
  - destruct (is_ImportError (exn_cls e)); [|done].
    eapply grows_trans; [done|apply print_grows].
Qed.

Lemma discover_grows (env : environment) (s : state) :
  grows s (snd (discover env s)).
Proof.
  unfold discover.
  apply bind_grows; [apply load_ida_grows|]. intros _ s1.
  apply bind_grows; [apply load_module_grows|]. intros _ s2.
  apply bind_grows; [apply load_module_grows|]. intros _ s3.
  by repeat split.
Qed.

Lemma find_grows (env : environment) (name : string) (s : state) :
  grows s (snd (find_dae_integrator re_match env name s)).
Proof.
  unfold find_dae_integrator. apply bind_grows; [|intros; apply grows_refl].
  intros s0. unfold ensure_loaded.
  destruct (LOADED s0); [apply grows_refl|apply discover_grows].
Qed.

(** X10: whatever the modules do, a lookup and a construction only add:
    the classes listed, the lines printed and the imports logged before
    the call stay, in place, at the beginning of those after it, and
    [LOADED] is never reset. *)
Theorem lookup_only_appends (env : environment) (name : string)
  (eqsres : value) (options : gmap string value) (s : state) :
  let s1 := snd (find_dae_integrator re_match env name s) in
  let s' := snd (dae__init__ re_match env name eqsres options s) in
  (integrator_classes s `prefix_of` integrator_classes s1
   /\ stdout s `prefix_of` stdout s1
   /\ imports s `prefix_of` imports s1
   /\ (LOADED s = true -> LOADED s1 = true))
  /\ (integrator_classes s `prefix_of` integrator_classes s'
      /\ stdout s `prefix_of` stdout s'
      /\ imports s `prefix_of` imports s'
      /\ (LOADED s = true -> LOADED s' = true)).
Proof.
  simpl. pose proof (find_grows env name s) as Hf.
  split; [exact Hf|].
  destruct (dae__init__registry re_match env name eqsres options s)
    as (HL & Hc & Ho & Hi).
  destruct Hf as (Hc' & Ho' & Hi' & HL').
  rewrite HL, Hc, Ho, Hi. done.
Qed.


(** X12: while [sundials] loads and the import of [ddaspkint] fails in
    a way that is not caught, every lookup runs the discovery again and
    appends the [IDA] class once more: after [n] lookups the list holds
    [n] further copies of it, and [LOADED] is still unset. *)
Theorem aborted_lookups_duplicate_IDA (env : environment) (name : string)
  (IDA : pyclass) (e : exn) (n : nat) (s : state) :
  sundials_ida env = Ret IDA ->
  ddaspkint env = Raise e ->
  is_ImportError (exn_cls e) = false ->
  LOADED s = false ->
  let sn := find_repeatedly re_match env name n s in
  integrator_classes sn = integrator_classes s ++ replicate n IDA
  /\ LOADED sn = false.
Proof.
  intros Hida Hdd He. revert s. induction n as [|n IH]; intros s Hs; simpl.
  - by rewrite app_nil_r.
  - assert (snd (find_dae_integrator re_match env name s)
            = {| LOADED := false;
                 integrator_classes := integrator_classes s ++ [IDA];
                 stdout := stdout s;
                 imports := (imports s ++ ["sundials.ida"]) ++ ["ddaspkint"];
                 heap := heap s |}) as ->.
    { unfold find_dae_integrator, bind, ensure_loaded. rewrite Hs.
      unfold discover, bind, load_ida, load_module, import_module, register.
      rewrite Hida, Hdd. simpl. rewrite He. simpl. by rewrite Hs. }
    match goal with
    | |- context [find_repeatedly _ _ _ _ ?s1] =>
        destruct (IH s1 eq_refl) as [Hc HL]
    end.
    simpl in Hc. split; [|done]. by rewrite Hc, <- app_assoc.
Qed.

(** X2: when no backend loads, the first construction fails for every
    name with the [ValueError] that quotes the name; the name is never
    handed to [re.match]. *)
Theorem nothing_loaded_every_name_fails (env : environment) (name : string)
  (eqsres : value) (options : gmap string value) (s : state) :
  LOADED s = false ->
  integrator_classes s = [] ->
  handled env = true ->
  loaded_classes env = [] ->
  dae__init__ re_match env name eqsres options s
  = (Raise (Exn ValueError ("Integrator name " +:+ name +:+ " does not exsist")),
     after_discovery env s).
Proof.
  intros Hs Hreg Henv Hnone. unfold dae__init__, bind.
  rewrite find_first_call by done. simpl. by rewrite Hreg, Hnone.
Qed.

(** ** The facade *)

(** X7: a facade its constructor returns owns an instance of a class
    that is in the list and that the requested name matched; the instance
    is the one that class built from the arguments, and the construction
    changed the state beyond the lookup by that call alone. *)
Theorem constructed_facade_owns_matched_class (env : environment)
  (name : string) (eqsres : value) (options : gmap string value)
  (s s' : state) (self : dae) :
  dae__init__ re_match env name eqsres options s = (Ret self, s') ->
  exists cl o s1,
    _integrator self = Some {| inst_class := cl; inst_self := o |}
    /\ find_dae_integrator re_match env name s = (Ret (Some cl), s1)
    /\ cl ∈ integrator_classes s'
    /\ name_matches re_match name cl = Ret true
    /\ cl__init__ cl eqsres options (heap s1) = (Ret o, heap s')
    /\ s' = set_heap (heap s') s1.
Proof.
  unfold dae__init__, bind.
  destruct (find_dae_integrator re_match env name s) as [[[cl|]|e] s1] eqn:Hf;
    [|done..].
  rewrite call_on_heap.
  destruct (cl__init__ cl eqsres options (heap s1)) as [[o|e] w] eqn:Hnew;
    simpl; [|done].
  intros [= <- <-]. exists cl, o, s1.
  assert (search re_match name (integrator_classes s1) = Ret (Some cl)) as Hs.
  { revert Hf. unfold find_dae_integrator, bind.
    destruct (ensure_loaded env s) as [[[]|e] s2]; [|done]. by intros [= H <-]. }
  pose proof (search_result re_match name (integrator_classes s1)) as Hr.
  rewrite Hs in Hr. destruct Hr as [Hin Hm].
  by repeat split.
Qed.

(** X8: the constructor adds no exception of its own: whenever it
    raises, the exception is the one the lookup raised, or the one the
    constructor of the resolved class raised. *)
Theorem constructor_raises_only_what_it_calls (env : environment)
  (name : string) (eqsres : value) (options : gmap string value)
  (s : state) (e : exn) :
  fst (dae__init__ re_match env name eqsres options s) = Raise e
  <-> fst (find_dae_integrator re_match env name s) = Raise e
      \/ exists cl,
          fst (find_dae_integrator re_match env name s) = Ret (Some cl)
          /\ fst (cl__init__ cl eqsres options
                    (heap (snd (find_dae_integrator re_match env name s))))
             = Raise e.
Proof.
  pose proof (find_never_returns_None_aux env name s) as Hnone.
  unfold dae__init__, bind.
  destruct (find_dae_integrator re_match env name s) as [[[cl|]|e'] s1];
    simpl in *; [|done|].
  - rewrite call_on_heap.
    destruct (cl__init__ cl eqsres options (heap s1)) as [[o|e'] w] eqn:Hnew;
      simpl.
    + split; [done|]. intros [|(cl' & [= <-] & H)]; [done|].
      by rewrite Hnew in H.
    + split; [intros [= ->]; right; exists cl; by rewrite Hnew|].
      intros [|(cl' & [= <-] & H)]; [done|]. rewrite Hnew in H. simpl in H.
      by injection H as ->.
  - split; [intros [= ->]; by left|]. by intros [[= ->]|(cl' & ? & _)].
Qed.

(** X9: after [__del__] every operation of the facade raises
    [AttributeError] and reaches no integrator: the state is as it
    was. *)
Theorem disposed_facade_rejects_operations (i : instance) (op : operation)
  (s : state) :
  on_facade (snd (dae__del__ {| _integrator := Some i |})) op s
  = (Raise (Exn AttributeError "'dae' object has no attribute '_integrator'"), s).
Proof. by destruct op. Qed.

End Further.

(** ** The further properties on the small instance *)

(** X1 on a name no backend carries. *)
Lemma unmatched_name_raises_ValueError_witness :
  exists msg,
    dae__init__ re_match_literal env_all "nonexistent" 0 ∅ (initial [])
    = (Raise (Exn ValueError msg), after_discovery env_all (initial []))
    /\ occurs_in "nonexistent" msg.
Proof.
  apply (unmatched_name_raises_ValueError re_match_literal env_all
           "nonexistent" 0 ∅ (initial []) (after_discovery env_all (initial []))
           eq_refl).
  by repeat constructor.
Defined.

(** X2 on a name that is no well-formed pattern. *)
Lemma nothing_loaded_every_name_fails_witness :
  dae__init__ re_match_literal env_none "(" 0 ∅ (initial [])
  = (Raise (Exn ValueError "Integrator name ( does not exsist"),
     after_discovery env_none (initial [])).
Proof.
  exact (nothing_loaded_every_name_fails re_match_literal env_none "(" 0 ∅
           (initial []) eq_refl eq_refl eq_refl eq_refl).
Defined.

(** X3 after a discovery in which every backend loaded. *)
Lemma empty_name_binds_first_class_witness :
  find_dae_integrator re_match_literal env_all EmptyString (initial [])
  = (Ret (Some IDA), after_discovery env_all (initial [])).
Proof.
  exact (empty_name_binds_first_class re_match_literal env_all (initial [])
           (after_discovery env_all (initial [])) IDA [ddaspk; lsodi]
           re_match_literal_spec eq_refl eq_refl).
Defined.

(** X4 on [LSODI] and [lsodi]. *)
Lemma case_variants_resolve_alike_witness :
  search re_match_literal "LSODI" [IDA; ddaspk; lsodi] = Ret (Some lsodi).
Proof.
  apply (case_variants_resolve_alike re_match_literal "LSODI" "lsodi"
           [IDA; ddaspk; lsodi] lsodi re_match_literal_spec eq_refl eq_refl eq_refl).
  - by repeat constructor.
  - reflexivity.
Defined.

(** X5: [stepper] would match [step], and is not reached. *)
Lemma failing_test_stops_search_witness :
  search re_match_literal "step" [IDA; stub_class "stepper" ∅]
  = Raise (Exn AttributeError "type object 'IDA' has no attribute 'name'").
Proof.
  exact (failing_test_stops_search re_match_literal "step" []
           [stub_class "stepper" ∅] IDA _ (Forall_nil_2 _) eq_refl).
Defined.

(** X6 on [init_step], with [IDA] listed first. *)
Lemma method_name_request_raises_AttributeError_witness :
  search re_match_literal "init_step" [IDA; ddaspk; lsodi]
  = Raise (Exn AttributeError "type object 'IDA' has no attribute 'name'").
Proof.
  apply (method_name_request_raises_AttributeError re_match_literal "init_step"
           [] [ddaspk; lsodi] IDA re_match_literal_spec).
  - unfold contract_methods. do 3 apply list_elem_of_further.
    apply list_elem_of_here.
  - reflexivity.
  - reflexivity.
  - constructor.
Defined.

(** X7 on a facade for [ida]. *)
Lemma constructed_facade_owns_matched_class_witness :
  exists cl o s1,
    _integrator ida_facade = Some {| inst_class := cl; inst_self := o |}
    /\ find_dae_integrator re_match_literal env_all "ida" (initial [])
       = (Ret (Some cl), s1)
    /\ cl ∈ integrator_classes
              (set_heap ["IDA.__init__"] (after_discovery env_all (initial [])))
    /\ name_matches re_match_literal "ida" cl = Ret true
    /\ cl__init__ cl 0 ∅ (heap s1)
       = (Ret o, heap (set_heap ["IDA.__init__"]
                         (after_discovery env_all (initial []))))
    /\ set_heap ["IDA.__init__"] (after_discovery env_all (initial []))
       = set_heap (heap (set_heap ["IDA.__init__"]
                           (after_discovery env_all (initial [])))) s1.
Proof.
  exact (constructed_facade_owns_matched_class re_match_literal env_all "ida"
           0 ∅ (initial [])
           (set_heap ["IDA.__init__"] (after_discovery env_all (initial [])))
           ida_facade eq_refl).
Defined.


(** X12 after three lookups. *)
Lemma aborted_lookups_duplicate_IDA_witness :
  integrator_classes
    (find_repeatedly re_match_literal env_ddaspk_value_error "ida" 3 (initial []))
  = [IDA; IDA; IDA]
  /\ LOADED
       (find_repeatedly re_match_literal env_ddaspk_value_error "ida" 3 (initial []))
     = false.
Proof.
  exact (aborted_lookups_duplicate_IDA re_match_literal env_ddaspk_value_error
           "ida" IDA _ 3 (initial []) eq_refl eq_refl eq_refl eq_refl).
Defined.

(** X13: [idas] is no beginning of [IDA]. *)
Lemma longer_name_does_not_match_witness :
  name_matches re_match_literal "idas" IDA = Ret false.
Proof.
  apply (longer_name_does_not_match re_match_literal "idas" IDA
           re_match_literal_spec eq_refl); [simpl; lia|reflexivity].
Defined.

(** X14 on [lsodi], listed third. *)
Lemma search_returns_first_match_witness :
  exists before after,
    [IDA; ddaspk; lsodi] = before ++ lsodi :: after
    /\ Forall (fun c => name_matches re_match_literal "lsodi" c = Ret false) before
    /\ name_matches re_match_literal "lsodi" lsodi = Ret true.
Proof.
  exact (search_returns_first_match re_match_literal "lsodi"
           [IDA; ddaspk; lsodi] lsodi eq_refl).
Defined.
